(** * Boost.Hana [Type]: C++ types reified as compile-time objects

    A shallow embedding of [include/boost/hana/type.hpp] and of the two
    examples [example/list/foldable/count.cpp] and
    [example/type/lift_.cpp].

    The header computes with C++ types.  The embedding therefore starts
    with a universe of C++ types ([cpp_type]) and of objects ([object]);
    a template metafunction [template <typename ...> class f] is a partial
    function from lists of types to types, and a function template of the
    header is a partial function on objects: [None] stands for a program
    that the compiler rejects. *)

From stdpp Require Import base decidable option list numbers strings gmap.

Local Open Scope Z_scope.

#[local] Set Warnings "-register-all".

(** ** The universe of C++ types

    Object types without cv-qualifiers, plus [void].  Every function of
    the header takes its arguments and returns its result by value, so the
    types that template argument deduction produces are unqualified. *)

Inductive cpp_type : Type :=
  | Tvoid | Tbool | Tchar | Tshort | Tint | Tlong | Tlonglong | Tulong
  | Tfloat | Tdouble | Tlongdouble
  | Tpointer (T : cpp_type)
  | Tinitializer_list (T : cpp_type)      (* std::initializer_list<T> *)
  | TType                                 (* struct Type { }; *)
  | Twrapper (T : cpp_type)               (* the local struct [wrapper] of make_wrapper<T>() *)
  | Tintegral (T : cpp_type) (v : Z)      (* a compile-time constant v of type T *)
  | Tinst (f : string) (args : list cpp_type).  (* the class f<args...> *)

Global Instance cpp_type_eq_dec : EqDecision cpp_type.
Proof.
  refine (fix go (T U : cpp_type) {struct T} : Decision (T = U) :=
    let _ : EqDecision cpp_type := go in
    match T, U with
    | Tvoid, Tvoid | Tbool, Tbool | Tchar, Tchar | Tshort, Tshort
    | Tint, Tint | Tlong, Tlong | Tlonglong, Tlonglong | Tulong, Tulong
    | Tfloat, Tfloat | Tdouble, Tdouble | Tlongdouble, Tlongdouble
    | TType, TType => left _
    | Tpointer A, Tpointer B => cast_if (decide (A = B))
    | Tinitializer_list A, Tinitializer_list B => cast_if (decide (A = B))
    | Twrapper A, Twrapper B => cast_if (decide (A = B))
    | Tintegral A v, Tintegral B w =>
        cast_if_and (decide (A = B)) (decide (v = w))
    | Tinst f As, Tinst g Bs =>
        cast_if_and (decide (f = g)) (decide (As = Bs))
    | _, _ => right _
    end); abstract congruence.
Defined.

(** ** Objects

    An object is the expression that initialises it: a literal, a
    list-initialisation [T{args...}] or a direct-initialisation
    [T(args...)]. *)

Inductive object : Type :=
  | literal (T : cpp_type) (spelling : string)
  | braced (T : cpp_type) (args : list object)
  | direct (T : cpp_type) (args : list object).

(** [decltype(t)] for a by-value parameter [t]. *)
Definition type_of (o : object) : cpp_type :=
  match o with
  | literal T _ | braced T _ | direct T _ => T
  end.

(** ** What the header takes from the C++ implementation and program

    [sizeof] is implementation-defined, and whether a class outside this
    header can be initialised from given arguments depends on that class.
    Inside a function the arguments are parameters, not constant
    expressions, so whether [T{args...}] is well-formed depends on the
    types of the arguments only.

    The header looks into classes it does not define: [untype<T>] names
    the member [T::hidden] of whatever class T it is given, and an object
    of another class may have a call operator of its own.
    [member_hidden C] is the member typedef [hidden] of a class C defined
    outside the header, if it has one, and [call_operator o args] is
    [o(args...)] for an object [o] of such a class. *)

Class implementation := {
  sizeof : cpp_type → option N;
  list_initializable : cpp_type → list cpp_type → bool;
  direct_initializable : cpp_type → list cpp_type → bool;
  member_hidden : cpp_type → option cpp_type;
  call_operator : object → list object → option object;
}.

(** The class templates of <type_traits> used by the examples, with the
    [value] each one inherits from std::integral_constant<bool, value>. *)
Definition std_is_floating_point (T : cpp_type) : bool :=
  match T with
  | Tfloat | Tdouble | Tlongdouble => true
  | _ => false
  end.

Definition std_is_integral (T : cpp_type) : bool :=
  match T with
  | Tbool | Tchar | Tshort | Tint | Tlong | Tlonglong | Tulong => true
  | _ => false
  end.

(** [std::is_same<T, U>::value] *)
Definition std_is_same (T U : cpp_type) : bool := bool_decide (T = U).

Definition std_trait_value (f : string) (args : list cpp_type) : option bool :=
  match args with
  | [T] =>
      if decide (f = "std::is_floating_point") then Some (std_is_floating_point T)
      else if decide (f = "std::is_integral") then Some (std_is_integral T)
      else None
  | _ => None
  end.

Section initialisation.
Context `{!implementation}.

(** Is [T{args...}] well-formed for parameters [args] of these types?
    The classes this development knows are empty and are initialised by
    [{}]: [wrapper] (an aggregate without members), the compile-time
    constants and the type traits.  Everything else is left to the
    implementation. *)
Definition well_formed_braces (T : cpp_type) (As : list cpp_type) : bool :=
  match T, As with
  | Twrapper _, [] => true
  | Tintegral _ _, [] => true
  | Tinst f args, [] =>
      match std_trait_value f args with
      | Some _ => true
      | None => list_initializable T As
      end
  | _, _ => list_initializable T As
  end.

(** [T{args...}] *)
Definition list_init (T : cpp_type) (args : list object) : option object :=
  if well_formed_braces T (type_of <$> args) then Some (braced T args)
  else None.

(** [T(args...)] *)
Definition direct_init (T : cpp_type) (args : list object) : option object :=
  if direct_initializable T (type_of <$> args) then Some (direct T args)
  else None.
End initialisation.

(** ** Overloaded function templates

    A function template of the header has a list of by-value parameters
    whose types are template parameters ([T], [U]), possibly inside
    [std::initializer_list<>], and possibly a trailing pack
    [Args ...args]. *)

Inductive pattern : Type :=
  | P_param (i : nat)                     (* the i-th template parameter *)
  | P_initializer_list (p : pattern).     (* std::initializer_list<p> *)

Record signature := {
  fixed : list pattern;
  pack : bool;                            (* ends in a parameter pack *)
}.

(** Template argument deduction: the types already deduced are kept in a
    finite map; a parameter that occurs twice must be deduced to the same
    type both times. *)
Fixpoint deduce_type (p : pattern) (A : cpp_type) (σ : gmap nat cpp_type)
    : option (gmap nat cpp_type) :=
  match p with
  | P_param i =>
      match σ !! i with
      | None => Some (<[i := A]> σ)
      | Some B => if decide (A = B) then Some σ else None
      end
  | P_initializer_list q =>
      match A with
      | Tinitializer_list B => deduce_type q B σ
      | _ => None
      end
  end.

Fixpoint deduce (ps : list pattern) (variadic : bool) (As : list cpp_type)
    (σ : gmap nat cpp_type) : bool :=
  match ps, As with
  | [], [] => true
  | [], _ :: _ => variadic
  | _ :: _, [] => false
  | p :: ps', A :: As' =>
      match deduce_type p A σ with
      | Some σ' => deduce ps' variadic As' σ'
      | None => false
      end
  end.

Definition accepts (s : signature) (As : list cpp_type) : bool :=
  deduce (fixed s) (pack s) As ∅.

(** Partial ordering of function templates: each template parameter of
    the first template is replaced by a unique type, and the second
    template must accept the resulting argument list.  A parameter pack
    is only matched by a parameter pack. *)
Definition unique_type (i : nat) : cpp_type := Tinst "unique" (replicate i Tvoid).

Fixpoint synthesize (p : pattern) : cpp_type :=
  match p with
  | P_param i => unique_type i
  | P_initializer_list q => Tinitializer_list (synthesize q)
  end.

Definition at_least_as_specialized (s1 s2 : signature) : bool :=
  (if pack s1
   then pack s2 && bool_decide (length (fixed s2) ≤ length (fixed s1))%nat
   else true)
  && accepts s2 (synthesize <$> fixed s1).

Definition more_specialized (s1 s2 : signature) : bool :=
  at_least_as_specialized s1 s2 && negb (at_least_as_specialized s2 s1).

Record overload := {
  sig : signature;
  body : list object → option object;
}.

Definition viable (args : list object) (o : overload) : bool :=
  accepts (sig o) (type_of <$> args).

(** The candidate at position [i] wins when it is more specialised than
    every other viable candidate. *)
Definition wins (vs : list overload) (i : nat) (o : overload) : bool :=
  forallb (λ jo, bool_decide (jo.1 = i) || more_specialized (sig o) (sig jo.2))
          (imap pair vs).

(** Overload resolution: [None] when no candidate is viable or when the
    call is ambiguous. *)
Definition resolve (cands : list overload) (args : list object)
    : option overload :=
  let vs := List.filter (viable args) cands in
  match List.filter (λ io, wins vs io.1 io.2) (imap pair vs) with
  | [io] => Some io.2
  | _ => None
  end.

Definition call_overloaded (cands : list overload) (args : list object)
    : option object :=
  o ← resolve cands args; body o args.

(** ** Compile-time constants *)

(** Modelled from the spec: the compile-time values of
    boost/hana/integral.hpp, which is not among the sources ("the only
    externally observable artifact is ... what compile-time value
    results").  A constant is an empty object whose type carries the
    value. *)
Definition integral (T : cpp_type) (v : Z) : object := braced (Tintegral T v) [].

(** Modelled from the spec: [true_] of boost/hana/integral.hpp. *)
Definition true_ : object := integral Tbool 1.

(** Modelled from the spec: [false_] of boost/hana/integral.hpp. *)
Definition false_ : object := integral Tbool 0.

(** Modelled from the spec: [size_t<n>] of boost/hana/integral.hpp. *)
Definition size_t (n : N) : object := integral Tulong (Z.of_N n).

(** Modelled from the spec: the value of a compile-time boolean, which is
    a constant of boost/hana/integral.hpp or, through
    boost/hana/adapted/std_integral_constant.hpp, an object of a type
    trait; neither header is among the sources. *)
Definition truth_value (o : object) : option bool :=
  match type_of o with
  | Tintegral _ v => Some (bool_decide (v ≠ 0))
  | Tinst f args => std_trait_value f args
  | _ => None
  end.

(** ** boost/hana/type.hpp *)

(** A template metafunction [template <typename ...> class f]:
    [f args = Some R] when [f<args...>] is the type [R], [None] when the
    instantiation is ill-formed. *)
Definition metafunction := list cpp_type → option cpp_type.

(** The member typedefs of [wrapper]:
    [using hana_datatype = Type; using hidden = T;] *)
Definition hana_datatype (W : cpp_type) : option cpp_type :=
  match W with
  | Twrapper _ => Some TType
  | _ => None
  end.

(** [typename W::hidden]: the member of [wrapper], the member of a class
    defined elsewhere, and ill-formed for the types that have no members
    ([struct Type { }] is empty, std::initializer_list has no such
    member, the others are not classes). *)
Definition hidden `{!implementation} (W : cpp_type) : option cpp_type :=
  match W with
  | Twrapper T => Some T
  | Tintegral _ _ | Tinst _ _ => member_hidden W
  | _ => None
  end.

(** [make_wrapper<T>()] returns [wrapper{}]. *)
Definition make_wrapper (T : cpp_type) : object := braced (Twrapper T) [].

(** [template <typename T> constexpr auto type = type_detail::make_wrapper<T>();] *)
Definition type (T : cpp_type) : object := make_wrapper T.

(** [untype<T>::type] is [typename T::hidden]. *)
Definition untype `{!implementation} (T : cpp_type) : option cpp_type :=
  hidden T.
Definition untype_t `{!implementation} (T : cpp_type) : option cpp_type :=
  untype T.

(** [decltype_ = [](auto t) { return type<decltype(t)>; }] *)
Definition decltype_ (t : object) : object := type (type_of t).

(** [type_detail::Template<f>::operator()(Args...)] returns
    [type<f<untype_t<Args>...>>]. *)
Definition template_ `{!implementation} (f : metafunction)
    (args : list object) : option object :=
  xs ← mapM (λ a, untype_t (type_of a)) args;
  R ← f xs;
  Some (type R).

Section type_hpp.
Context `{!implementation}.

(** [type_detail::construct<Wrapper>]: the two call operators that
    [wrapper] inherits.

    template <typename T>
    operator()(std::initializer_list<T> ilist)
    { return typename Wrapper::hidden(ilist); } *)
Definition construct_ilist (Wrapper : cpp_type) : overload :=
  {| sig := {| fixed := [P_initializer_list (P_param 0)]; pack := false |};
     body := λ ilist, T ← hidden Wrapper; direct_init T ilist |}.

(** template <typename ...Args>
    operator()(Args ...args)
    { return typename Wrapper::hidden{args...}; } *)
Definition construct_args (Wrapper : cpp_type) : overload :=
  {| sig := {| fixed := []; pack := true |};
     body := λ args, T ← hidden Wrapper; list_init T args |}.

Definition construct (Wrapper : cpp_type) : list overload :=
  [construct_ilist Wrapper; construct_args Wrapper].

(** Calling an object [w(args...)]: a [wrapper] inherits the two call
    operators of [construct<wrapper>]; an object of another class has the
    call operator of its class. *)
Definition call (w : object) (args : list object) : option object :=
  match type_of w with
  | Twrapper _ => call_overloaded (construct (type_of w)) args
  | _ => call_operator w args
  end.

(** [sizeof_ = [](auto t) { return size_t<sizeof(untype_t<decltype(t)>)>; }] *)
Definition sizeof_ (t : object) : option object :=
  T ← untype_t (type_of t); n ← sizeof T; Some (size_t n).

(** [type_detail::lift<f>::operator()(T ...t)] returns
    [f<untype_t<decltype(t)>...>{}]. *)
Definition lift (f : metafunction) (t : list object) : option object :=
  xs ← mapM (λ a, untype_t (type_of a)) t;
  R ← f xs;
  list_init R [].

(** [type_detail::lift_<f>::operator()(T ...t)] returns
    [f<decltype(t)...>{}]. *)
Definition lift_ (f : metafunction) (t : list object) : option object :=
  R ← f (type_of <$> t);
  list_init R [].
End type_hpp.

(** *** The instances of Comparable, Functor and Monad *)

(** Modelled from the spec: the concept Comparable of
    boost/hana/comparable.hpp, which is not among the sources; a concept
    is "a named set of required operations". *)
Record Comparable := { equal_impl : object → object → option object }.

(** Modelled from the spec: the concept Functor of
    boost/hana/functor.hpp, which is not among the sources. *)
Record Functor := {
  fmap_impl : (object → option object) → object → option object }.

(** Modelled from the spec: the concept Monad of boost/hana/monad.hpp,
    which is not among the sources. *)
Record Monad := {
  unit_impl : object → option object;
  join_impl : object → option object }.

(** template <typename T, typename U>
    equal_impl(T, U) { return false_; } *)
Definition equal_impl_T_U : overload :=
  {| sig := {| fixed := [P_param 0; P_param 1]; pack := false |};
     body := λ _, Some false_ |}.

(** template <typename T>
    equal_impl(T, T) { return true_; } *)
Definition equal_impl_T_T : overload :=
  {| sig := {| fixed := [P_param 0; P_param 0]; pack := false |};
     body := λ _, Some true_ |}.

(** [struct Comparable<Type, Type>] *)
Definition Comparable_Type_Type : Comparable :=
  {| equal_impl := λ t u,
       call_overloaded [equal_impl_T_U; equal_impl_T_T] [t; u] |}.

(** [struct Functor<Type>]: [fmap_impl(F f, T t) { return f(t); }] *)
Definition Functor_Type : Functor :=
  {| fmap_impl := λ f t, f t |}.

(** [struct Monad<Type>]: [unit_impl(T t) { return decltype_(t); }] and
    [join_impl(T) { return untype_t<T>{}; }] *)
Definition Monad_Type `{!implementation} : Monad :=
  {| unit_impl := λ t, Some (decltype_ t);
     join_impl := λ t, T ← untype_t (type_of t); list_init T [] |}.

(** ** Tag dispatch

    The spec: tag dispatch is "selecting an algorithm implementation at
    compile time based on a value's declared data-type tag", and an
    instance is "a per-tag implementation" of a concept's operations.
    The instances known here are the three that type.hpp registers. *)

(** Modelled from the spec: [datatype_t] of boost/hana/core.hpp, which is
    not among the sources: a value's declared data-type tag. *)
Definition datatype (x : object) : option cpp_type := hana_datatype (type_of x).

Section dispatch.
Context `{!implementation}.

(** Modelled from the spec: the lookup of the specialisation
    [Comparable<T, U>] (boost/hana/comparable.hpp is not among the
    sources). *)
Definition Comparable_instance (T U : cpp_type) : option Comparable :=
  match T, U with
  | TType, TType => Some Comparable_Type_Type
  | _, _ => None
  end.


(** Modelled from the spec: the lookup of the specialisation [Monad<T>]
    (boost/hana/monad.hpp is not among the sources). *)
Definition Monad_instance (T : cpp_type) : option Monad :=
  match T with
  | TType => Some Monad_Type
  | _ => None
  end.

(** Modelled from the spec: [equal] of boost/hana/comparable.hpp, which
    dispatches on the tags of both arguments. *)
Definition equal (x y : object) : option object :=
  T ← datatype x; U ← datatype y;
  I ← Comparable_instance T U;
  equal_impl I x y.


(** Modelled from the spec: [unit] of boost/hana/monad.hpp, dispatched on
    the tag of the value. *)
Definition unit (x : object) : option object :=
  T ← datatype x; I ← Monad_instance T; unit_impl I x.

(** Modelled from the spec: [join] of boost/hana/monad.hpp, dispatched on
    the tag of the value. *)
Definition join (x : object) : option object :=
  T ← datatype x; I ← Monad_instance T; join_impl I x.

(** ** The list example *)

(** Modelled from the spec: [list_t] of boost/hana/list.hpp, which is not
    among the sources: [list_t<xs...>] is the list of the Type objects
    [type<xs>...]. *)
Definition list_t (xs : list cpp_type) : list object := type <$> xs.

(** Modelled from the spec: the placeholder expression [_ == y] of
    boost/hana/functional.hpp, which is not among the sources; the [==]
    that [wrapper] gets from [operators::enable] is [equal]. *)
Definition equal_to (y : object) : object → option object := λ x, equal x y.

(** Modelled from the spec: whether an element satisfies a predicate, the
    predicate returning a compile-time boolean. *)
Definition satisfies (pred : object → option object) (x : object)
    : option bool :=
  pred x ≫= truth_value.

(** Modelled from the spec: [count] of boost/hana/foldable.hpp, which is
    not among the sources: the number of elements of [xs] that satisfy
    the predicate. *)
Definition count (pred : object → option object) (xs : list object)
    : option nat :=
  bs ← mapM (satisfies pred) xs;
  Some (length (List.filter id bs)).
End dispatch.

(** ** An implementation to run the examples on

    The LP64 data model, scalars initialised from nothing or from a value
    of their own type, and std::vector<T> built from its elements or from
    an initializer list. *)

Definition is_scalar (T : cpp_type) : bool :=
  match T with
  | Tbool | Tchar | Tshort | Tint | Tlong | Tlonglong | Tulong
  | Tfloat | Tdouble | Tlongdouble | Tpointer _ => true
  | _ => false
  end.

Definition lp64_sizeof (T : cpp_type) : option N :=
  match T with
  | Tbool | Tchar => Some 1%N
  | Tshort => Some 2%N
  | Tint | Tfloat => Some 4%N
  | Tlong | Tlonglong | Tulong | Tdouble | Tpointer _ => Some 8%N
  | Tlongdouble | Tinitializer_list _ => Some 16%N
  | TType | Twrapper _ | Tintegral _ _ => Some 1%N
  | Tinst f [_] => if decide (f = "std::vector") then Some 24%N else None
  | _ => None
  end.

Definition lp64_list_initializable (T : cpp_type) (As : list cpp_type) : bool :=
  match T, As with
  | Tinst f [E], _ =>
      bool_decide (f = "std::vector") && forallb (λ A, bool_decide (A = E)) As
  | _, [] => is_scalar T
  | _, [A] => is_scalar T && bool_decide (A = T)
  | _, _ => false
  end.

Definition lp64_direct_initializable (T : cpp_type) (As : list cpp_type) : bool :=
  match T, As with
  | Tinst f [E], [Tinitializer_list A] =>
      bool_decide (f = "std::vector") && bool_decide (A = E)
  | _, [] => is_scalar T
  | _, [A] => is_scalar T && is_scalar A
  | _, _ => false
  end.

(** A program with the class
    [template <typename T> struct has_hidden { using hidden = T; };],
    which is no Type object but has the member [untype] looks for. *)
Definition lp64_member_hidden (C : cpp_type) : option cpp_type :=
  match C with
  | Tinst f [T] => if decide (f = "has_hidden") then Some T else None
  | _ => None
  end.

(** [std::integral_constant<bool, v>::operator()] returns [v]; the type
    traits inherit it. *)
Definition lp64_call_operator (o : object) (args : list object)
    : option object :=
  match type_of o, args with
  | Tinst f targs, [] =>
      b ← std_trait_value f targs;
      Some (literal Tbool (if b : bool then "true" else "false"))
  | _, _ => None
  end.

Definition lp64 : implementation :=
  {| sizeof := lp64_sizeof;
     list_initializable := lp64_list_initializable;
     direct_initializable := lp64_direct_initializable;
     member_hidden := lp64_member_hidden;
     call_operator := lp64_call_operator |}.


(** An object of the class [has_hidden<int>]. *)
Definition has_hidden_int : object := braced (Tinst "has_hidden" [Tint]) [].

(** The metafunctions of the examples. *)
Definition class_template (name : string) (arity : nat) : metafunction :=
  λ args, if decide (length args = arity) then Some (Tinst name args) else None.

Definition is_floating_point : metafunction := class_template "std::is_floating_point" 1.
Definition is_integral : metafunction := class_template "std::is_integral" 1.

(** The argument list is one std::initializer_list. *)
Definition single_initializer_list (args : list object) : bool :=
  match type_of <$> args with
  | [Tinitializer_list _] => true
  | _ => false
  end.

(** [list_t<int, char, long, short, char, long, double, long>] of
    example/list/foldable/count.cpp. *)
Definition types : list object :=
  list_t [Tint; Tchar; Tlong; Tshort; Tchar; Tlong; Tdouble; Tlong].

(** [std::vector<int>] and the initializer list [{0, 1, 2}]. *)
Definition vector_int : cpp_type := Tinst "std::vector" [Tint].
Definition ilist_012 : object :=
  braced (Tinitializer_list Tint)
    [literal Tint "0"; literal Tint "1"; literal Tint "2"].

(** [g<f<xs...>>]: one metafunction applied to the result of another. *)
Definition after (g f : metafunction) : metafunction :=
  λ xs, R ← f xs; g [R].


(** * Properties *)

(** ** Template argument deduction and overload resolution *)

Lemma accepts_two_distinct (A B : cpp_type) :
  accepts {| fixed := [P_param 0; P_param 1]; pack := false |} [A; B] = true.
Proof.
  unfold accepts; cbn [fixed pack deduce deduce_type].
  rewrite lookup_empty, lookup_insert_ne, lookup_empty by done.
  reflexivity.
Qed.

Lemma accepts_two_same (A B : cpp_type) :
  accepts {| fixed := [P_param 0; P_param 0]; pack := false |} [A; B]
  = bool_decide (A = B).
Proof.
  unfold accepts; cbn [fixed pack deduce deduce_type].
  rewrite lookup_empty, lookup_insert_eq.
  case_bool_decide as E; destruct (decide (B = A)) as [E'|E']; congruence.
Qed.

Lemma accepts_pack (As : list cpp_type) :
  accepts {| fixed := []; pack := true |} As = true.
Proof. by destruct As. Qed.

(** Two candidates: the four ways a call can be resolved. *)
Section resolve_two.
Variables (a b : overload) (args : list object).

Lemma resolve_first_only :
  viable args a = true → viable args b = false → resolve [a; b] args = Some a.
Proof.
  intros Ha Hb. unfold resolve. cbn [List.filter]. rewrite Ha, Hb.
  cbn. reflexivity.
Qed.

Lemma resolve_second_only :
  viable args a = false → viable args b = true → resolve [a; b] args = Some b.
Proof.
  intros Ha Hb. unfold resolve. cbn [List.filter]. rewrite Ha, Hb.
  cbn. reflexivity.
Qed.

Lemma resolve_second_better :
  viable args a = true → viable args b = true →
  more_specialized (sig b) (sig a) = true →
  more_specialized (sig a) (sig b) = false →
  resolve [a; b] args = Some b.
Proof.
  intros Ha Hb Hba Hab. unfold resolve. cbn [List.filter]. rewrite Ha, Hb.
  cbn. rewrite Hba, Hab. cbn. reflexivity.
Qed.

Lemma resolve_first_better :
  viable args a = true → viable args b = true →
  more_specialized (sig a) (sig b) = true →
  more_specialized (sig b) (sig a) = false →
  resolve [a; b] args = Some a.
Proof.
  intros Ha Hb Hab Hba. unfold resolve. cbn [List.filter]. rewrite Ha, Hb.
  cbn. rewrite Hba, Hab. cbn. reflexivity.
Qed.
End resolve_two.

(** The orderings that decide the overloaded calls of the header, and a
    call that no ordering decides. *)
Example equal_impl_T_T_more_specialized :
  more_specialized (sig equal_impl_T_T) (sig equal_impl_T_U) = true
  ∧ more_specialized (sig equal_impl_T_U) (sig equal_impl_T_T) = false.
Proof. split; reflexivity. Qed.

Example construct_ilist_more_specialized `{!implementation} (W : cpp_type) :
  more_specialized (sig (construct_ilist W)) (sig (construct_args W)) = true
  ∧ more_specialized (sig (construct_args W)) (sig (construct_ilist W)) = false.
Proof. split; reflexivity. Qed.

Example same_signature_is_ambiguous :
  resolve [equal_impl_T_U; equal_impl_T_U] [type Tint; type Tchar] = None.
Proof. reflexivity. Qed.

(** ** Comparable<Type, Type> *)

Lemma viable_equal_impl_T_U (t u : object) :
  viable [t; u] equal_impl_T_U = true.
Proof. apply accepts_two_distinct. Qed.

Lemma viable_equal_impl_T_T (t u : object) :
  viable [t; u] equal_impl_T_T = bool_decide (type_of t = type_of u).
Proof. apply accepts_two_same. Qed.

(** [equal_impl(T, T)] is the more specialised of the two templates, so
    it is the one called whenever both arguments have one type. *)
Lemma equal_impl_Type (t u : object) :
  equal_impl Comparable_Type_Type t u
  = Some (if decide (type_of t = type_of u) then true_ else false_).
Proof.
  unfold Comparable_Type_Type, equal_impl, call_overloaded.
  pose proof (viable_equal_impl_T_U t u) as HTU.
  pose proof (viable_equal_impl_T_T t u) as HTT.
  destruct (decide (type_of t = type_of u)) as [E|E].
  - rewrite bool_decide_eq_true_2 in HTT by done.
    by rewrite (resolve_second_better _ _ _ HTU HTT).
  - rewrite bool_decide_eq_false_2 in HTT by done.
    by rewrite (resolve_first_only _ _ _ HTU HTT).
Qed.

Lemma datatype_Type_wrapper (x : object) :
  datatype x = Some TType ↔ ∃ T, type_of x = Twrapper T.
Proof.
  unfold datatype, hana_datatype. split.
  - destruct (type_of x); try discriminate. eauto.
  - by intros [T ->].
Qed.

Lemma equal_dispatch (x y : object) :
  datatype x = Some TType → datatype y = Some TType →
  equal x y = equal_impl Comparable_Type_Type x y.
Proof. intros Hx Hy. unfold equal. by rewrite Hx, Hy. Qed.

Lemma equal_types (T U : cpp_type) :
  equal (type T) (type U) = Some (if decide (T = U) then true_ else false_).
Proof.
  rewrite equal_dispatch, equal_impl_Type by done. cbn.
  destruct (decide (Twrapper T = Twrapper U)), (decide (T = U));
    congruence.
Qed.

(** C1: for all C++ types T and U, [equal(type<T>, type<U>)] is the call
    [Comparable<Type, Type>::equal_impl(type<T>, type<U>)]; it yields the
    compile-time boolean [true_] if and only if T and U are the same type
    (as std::is_same), [false_] otherwise; in particular
    [equal(type<T>, type<T>)] is [true_]. *)
Theorem equal_Type_iff_same_type (T U : cpp_type) :
  equal (type T) (type U) = equal_impl Comparable_Type_Type (type T) (type U)
  ∧ (equal (type T) (type U) = Some true_ ↔ T = U)
  ∧ (equal (type T) (type U) = Some false_ ↔ T ≠ U)
  ∧ equal (type T) (type U) ≫= truth_value = Some (std_is_same T U)
  ∧ equal (type T) (type T) = Some true_.
Proof.
  split; [by apply equal_dispatch|].
  rewrite !equal_types. unfold std_is_same.
  destruct (decide (T = U)) as [E|E]; repeat split; try done.
  - by rewrite bool_decide_eq_true_2.
  - by rewrite decide_True.
  - by rewrite bool_decide_eq_false_2.
  - by rewrite decide_True.
Qed.

(** ** Reifying and un-reifying *)

Lemma untype_t_type `{!implementation} (T : cpp_type) :
  untype_t (type_of (type T)) = Some T.
Proof. reflexivity. Qed.

Lemma mapM_untype_t_types `{!implementation} (xs : list cpp_type) :
  mapM (λ a, untype_t (type_of a)) (type <$> xs) = Some xs.
Proof. by apply mapM_fmap_Some. Qed.

Lemma mapM_untype_t_decltype_ `{!implementation} (vs : list object) :
  mapM (λ a, untype_t (type_of a)) (decltype_ <$> vs) = Some (type_of <$> vs).
Proof.
  induction vs as [|v vs IH]; [done|].
  rewrite !fmap_cons. simpl. by rewrite IH.
Qed.

(** C3: [untype] is the inverse of [type]: for every C++ type T,
    [untype_t] of the type of the object [type<T>] is T itself, so
    reifying and then un-reifying is the identity on types; and among the
    Type objects only [type<T>] un-reifies to T. *)
Theorem untype_inverse_of_type `{!implementation} (T : cpp_type) :
  untype_t (type_of (type T)) = Some T
  ∧ untype (type_of (type T)) = Some T
  ∧ ∀ U, untype_t (type_of (type U)) = Some T ↔ U = T.
Proof.
  repeat split; try done.
  - by intros [= ->].
  - by intros ->.
Qed.

(** ** template_ *)

Lemma template_types `{!implementation} (f : metafunction)
    (xs : list cpp_type) :
  template_ f (type <$> xs) = type <$> f xs.
Proof.
  unfold template_. rewrite mapM_untype_t_types. cbn.
  by destruct (f xs).
Qed.

(** C2: for every template metafunction f and all types x1, ..., xN,
    [template_<f>(type<x1>, ..., type<xN>)] is [type<f<x1, ..., xN>>]
    (and is ill-formed when [f<x1, ..., xN>] is). *)
Theorem template_on_types `{!implementation} (f : metafunction)
    (xs : list cpp_type) :
  template_ f (type <$> xs) = type <$> f xs
  ∧ ∀ R, f xs = Some R → template_ f (type <$> xs) = Some (type R).
Proof.
  split; [apply template_types|].
  intros R HR. by rewrite template_types, HR.
Qed.

(** ** Type objects as constructors *)

Section construct.
Context `{!implementation}.

Lemma viable_construct_ilist (W : cpp_type) (args : list object) :
  viable args (construct_ilist W) = single_initializer_list args.
Proof.
  unfold viable, single_initializer_list, accepts.
  cbn [construct_ilist sig fixed pack].
  destruct (type_of <$> args) as [|A [|B As]]; [done| |].
  - cbn [deduce deduce_type]. by destruct A.
  - cbn [deduce deduce_type]. by destruct A.
Qed.

Lemma viable_construct_args (W : cpp_type) (args : list object) :
  viable args (construct_args W) = true.
Proof. apply accepts_pack. Qed.

(** The call operator of [type<T>]: the initializer-list overload is
    the more specialised one and wins when both are viable. *)
Lemma call_wrapper (w : object) (T : cpp_type) (args : list object) :
  type_of w = Twrapper T →
  call w args = if single_initializer_list args then direct_init T args
                else list_init T args.
Proof.
  intros Hw. unfold call. rewrite Hw. unfold call_overloaded, construct.
  pose proof (viable_construct_ilist (Twrapper T) args) as Hi.
  pose proof (viable_construct_args (Twrapper T) args) as Ha.
  destruct (single_initializer_list args).
  - by rewrite (resolve_first_better _ _ _ Hi Ha).
  - by rewrite (resolve_second_only _ _ _ Hi Ha).
Qed.

Lemma call_type (T : cpp_type) (args : list object) :
  call (type T) args = if single_initializer_list args then direct_init T args
                       else list_init T args.
Proof. by apply call_wrapper. Qed.

Lemma list_init_Some (T : cpp_type) (args : list object) (o : object) :
  list_init T args = Some o → o = braced T args ∧ type_of o = T.
Proof. unfold list_init. case_match; naive_solver. Qed.

Lemma direct_init_Some (T : cpp_type) (args : list object) (o : object) :
  direct_init T args = Some o → o = direct T args ∧ type_of o = T.
Proof. unfold direct_init. case_match; naive_solver. Qed.
End construct.

(** C9: for every C++ type T, [type<T>] is callable as a constructor
    function.  Whenever T is constructible from [args], that is
    [T{args...}] is an object [o] (or, for a single std::initializer_list
    argument, [T(ilist)] is an object [o]), the call [type<T>(args...)]
    returns that object, and it has type T. *)
Theorem type_is_a_constructor `{!implementation} (T : cpp_type)
    (args : list object) (o : object) :
  (if single_initializer_list args then direct_init T args
   else list_init T args) = Some o →
  call (type T) args = Some o
  ∧ type_of o = T
  ∧ o = (if single_initializer_list args then direct T args
         else braced T args).
Proof.
  intros Hok. rewrite call_type. split; [done|].
  destruct (single_initializer_list args).
  - destruct (direct_init_Some _ _ _ Hok) as [-> ?]. done.
  - destruct (list_init_Some _ _ _ Hok) as [-> ?]. done.
Qed.

(** [type<std::vector<int>>({0, 1, 2})] and [type<int>(2)]. *)
Lemma type_is_a_constructor_witness :
  (@direct_init lp64 vector_int [ilist_012]
     = Some (direct vector_int [ilist_012])
   ∧ @call lp64 (type vector_int) [ilist_012]
     = Some (direct vector_int [ilist_012]))
  ∧ (@list_init lp64 Tint [literal Tint "2"]
       = Some (braced Tint [literal Tint "2"])
     ∧ @call lp64 (type Tint) [literal Tint "2"]
       = Some (braced Tint [literal Tint "2"])).
Proof.
  split; (split; [reflexivity|]).
  - exact (proj1 (@type_is_a_constructor lp64 vector_int [ilist_012]
                    (direct vector_int [ilist_012]) eq_refl)).
  - exact (proj1 (@type_is_a_constructor lp64 Tint [literal Tint "2"]
                    (braced Tint [literal Tint "2"]) eq_refl)).
Defined.

(** ** lift and lift_ *)

Section lifting.
Context `{!implementation}.




End lifting.




(** C10: [lift_<f>] is [lift<f>] after [decltype_]: for every template
    metafunction f and all values v1, ..., vN, [lift_<f>(v1, ..., vN)] is
    the default-constructed object [f<decltype(v1), ..., decltype(vN)>{}]
    and equals [lift<f>(decltype_(v1), ..., decltype_(vN))]; as in
    example/type/lift_.cpp, [lift_<std::is_integral>] is true on [2] and
    on [2ll] and false on [2.2]. *)
Theorem lift__is_lift_of_decltype_ `{!implementation} (f : metafunction)
    (vs : list object) :
  lift_ f vs = lift f (decltype_ <$> vs)
  ∧ lift_ f vs = (R ← f (type_of <$> vs); list_init R [])
  ∧ (∀ o, lift_ f vs = Some o →
          ∃ R, f (type_of <$> vs) = Some R ∧ o = braced R [] ∧ type_of o = R)
  ∧ lift_ is_integral [literal Tint "2"] ≫= truth_value = Some true
  ∧ lift_ is_integral [literal Tlonglong "2ll"] ≫= truth_value = Some true
  ∧ lift_ is_integral [literal Tdouble "2.2"] ≫= truth_value = Some false.
Proof.
  split; [|split; [done|split; [|done]]].
  - unfold lift_, lift. by rewrite mapM_untype_t_decltype_.
  - intros o. unfold lift_.
    destruct (f (type_of <$> vs)) as [R|]; [|done]. cbn.
    intros [-> Hty]%list_init_Some. by exists R.
Qed.

(** [sizeof_(type<int>)] is [size_t<4>] where int has four bytes. *)
Example sizeof__type_int : @sizeof_ lp64 (type Tint) = Some (size_t 4).
Proof. reflexivity. Qed.

(** ** Monad<Type> and the dispatch on the tag *)

Section monad.
Context `{!implementation}.


Lemma unit_dispatch (x : object) :
  datatype x = Some TType → unit x = unit_impl Monad_Type x.
Proof. intros Hx. unfold unit. by rewrite Hx. Qed.


Lemma datatype_type (T : cpp_type) : datatype (type T) = Some TType.
Proof. reflexivity. Qed.

Lemma datatype_decltype_ (v : object) : datatype (decltype_ v) = Some TType.
Proof. reflexivity. Qed.

Lemma join_type_of_type (X : cpp_type) :
  join (type (type_of (type X))) = Some (type X).
Proof. reflexivity. Qed.

Lemma join_unit (t : object) (X : cpp_type) :
  type_of t = Twrapper X → unit t ≫= join = Some (type X).
Proof.
  intros Ht. rewrite unit_dispatch by by apply datatype_Type_wrapper; eauto.
  cbn. unfold decltype_. by rewrite Ht.
Qed.
End monad.

(** C6: Type is a Monad with [unit(t) = decltype_(t)], and [join] maps
    the Type of a Type, [type<decltype(type<X>)>], to the inner Type
    object [type<X>]; for every Type object [t], [join(unit(t)) == t]
    is [true_]. *)
Theorem Monad_Type_join_unit `{!implementation} (t : object) :
  datatype t = Some TType →
  unit t = Some (decltype_ t)
  ∧ (∀ X, join (type (type_of (type X))) = Some (type X))
  ∧ (∃ X, type_of t = type_of (type X) ∧ unit t ≫= join = Some (type X))
  ∧ (j ← unit t ≫= join; equal j t) = Some true_.
Proof.
  intros Ht. destruct (proj1 (datatype_Type_wrapper t) Ht) as [X HX].
  split; [by rewrite unit_dispatch|].
  split; [apply join_type_of_type|].
  rewrite (join_unit t X HX). split; [by exists X|].
  change (equal (type X) t = Some true_).
  rewrite equal_dispatch, equal_impl_Type by done.
  rewrite HX. by rewrite decide_True.
Qed.

(** At [type<int>]. *)
Lemma Monad_Type_join_unit_witness :
  datatype (type Tint) = Some TType
  ∧ (j ← @unit lp64 (type Tint) ≫= @join lp64; equal j (type Tint))
    = Some true_.
Proof.
  split; [reflexivity|].
  destruct (@Monad_Type_join_unit lp64 (type Tint) eq_refl)
    as (_ & _ & _ & Hj).
  exact Hj.
Defined.






(** ** Foldable's count on a list of Type objects *)

Section count.
Context `{!implementation}.

Lemma count_nil (pred : object → option object) : count pred [] = Some 0%nat.
Proof. reflexivity. Qed.

Lemma count_cons (pred : object → option object) (x : object)
    (xs : list object) :
  count pred (x :: xs)
  = b ← satisfies pred x; n ← count pred xs;
    Some (if b : bool then S n else n).
Proof.
  unfold count. cbn [mapM].
  destruct (satisfies pred x) as [b|]; [|done]. cbn.
  destruct (mapM (satisfies pred) xs) as [bs|]; [|done]. cbn.
  by destruct b.
Qed.

(** [count] is defined when the predicate yields a compile-time boolean
    on every element, and is then the number of elements on which that
    boolean is true. *)
Lemma count_Some (pred : object → option object) (xs : list object)
    (n : nat) :
  count pred xs = Some n ↔
    Forall (λ x, is_Some (satisfies pred x)) xs
    ∧ n = length (filter (λ x, satisfies pred x = Some true) xs).
Proof.
  revert n. induction xs as [|x xs IH]; intros n.
  - rewrite count_nil. split.
    + intros [= <-]. by split.
    + intros [_ ->]. done.
  - rewrite count_cons, Forall_cons, filter_cons. split.
    + destruct (satisfies pred x) as [b|]; [|done]. cbn.
      destruct (count pred xs) as [m|]; [|done]. cbn.
      intros [= <-]. destruct (proj1 (IH m) eq_refl) as [HF ->].
      split; [by split|]. destruct b.
      * by rewrite decide_True.
      * by rewrite decide_False.
    + intros [[[b Hb] HF] ->]. rewrite Hb. cbn.
      rewrite (proj2 (IH _) (conj HF eq_refl)). cbn. destruct b.
      * by rewrite decide_True.
      * by rewrite decide_False.
Qed.
End count.

(** C7: [count(pred, xs)] is the number of elements of [xs] that satisfy
    [pred] (it is defined when [pred] yields a compile-time boolean on
    every element); on [list_t<int, char, long, short, char, long, double,
    long>], counting [lift<std::is_floating_point>] gives 1, counting
    [_ == type<char>] gives 2 and counting [_ == type<void>] gives 0. *)
Theorem count_satisfying `{!implementation} :
  (∀ pred xs n,
     count pred xs = Some n ↔
       Forall (λ x, is_Some (satisfies pred x)) xs
       ∧ n = length (filter (λ x, satisfies pred x = Some true) xs))
  ∧ count (λ x, lift is_floating_point [x]) types = Some 1%nat
  ∧ count (equal_to (type Tchar)) types = Some 2%nat
  ∧ count (equal_to (type Tvoid)) types = Some 0%nat.
Proof.
  split; [apply count_Some|]. repeat split; reflexivity.
Qed.

(** * Further properties of type.hpp *)

(** ** Comparable<Type, Type> is an equivalence *)

(** [equal_impl] is never ill-formed: one of the two overloads is always
    selected, it returns [true_] or [false_], and the order of the two
    arguments does not matter. *)
Theorem equal_impl_symmetric (t u : object) :
  equal_impl Comparable_Type_Type t u = equal_impl Comparable_Type_Type u t
  ∧ (equal_impl Comparable_Type_Type t u = Some true_
     ∨ equal_impl Comparable_Type_Type t u = Some false_)
  ∧ true_ ≠ false_.
Proof.
  rewrite !equal_impl_Type. split; [|split; [|done]].
  - destruct (decide (type_of t = type_of u)),
      (decide (type_of u = type_of t)); congruence.
  - case_decide; auto.
Qed.

(** [equal_impl] is transitive. *)
Theorem equal_impl_transitive (t u v : object) :
  equal_impl Comparable_Type_Type t u = Some true_ →
  equal_impl Comparable_Type_Type u v = Some true_ →
  equal_impl Comparable_Type_Type t v = Some true_.
Proof.
  rewrite !equal_impl_Type. intros Htu Huv.
  destruct (decide (type_of t = type_of u)) as [E1|]; [|done].
  destruct (decide (type_of u = type_of v)) as [E2|]; [|done].
  rewrite decide_True; [done|congruence].
Qed.

(** [wrapper{}], [wrapper()] and [wrapper{}] again. *)
Lemma equal_impl_transitive_witness :
  equal_impl Comparable_Type_Type (type Tint) (direct (type_of (type Tint)) [])
    = Some true_
  ∧ equal_impl Comparable_Type_Type (direct (type_of (type Tint)) []) (type Tint)
    = Some true_
  ∧ equal_impl Comparable_Type_Type (type Tint) (type Tint) = Some true_.
Proof.
  split; [reflexivity|]. split; [reflexivity|].
  exact (equal_impl_transitive (type Tint) (direct (type_of (type Tint)) [])
           (type Tint) eq_refl eq_refl).
Defined.

(** ** Arguments that cannot be un-reified *)

Lemma untype_t_scalar `{!implementation} (T : cpp_type) :
  is_scalar T = true → untype_t T = None.
Proof. by destruct T. Qed.

(** [untype_t] looks for the member [hidden] and not for the tag: on
    the class [has_hidden<int>], which is no Type object, [sizeof_] is
    [size_t<sizeof(int)>] and [template_<std::is_integral>] is
    [type<std::is_integral<int>>]. *)
Example untype_t_is_duck_typed :
  datatype has_hidden_int = None
  ∧ @sizeof_ lp64 has_hidden_int = Some (size_t 4)
  ∧ @template_ lp64 is_integral [has_hidden_int]
    = Some (type (Tinst "std::is_integral" [Tint])).
Proof. repeat split. Qed.

(** [sizeof_], [join_impl], [template_<f>] and [lift<f>] name
    [untype_t<decltype(a)>] for each argument [a]: an argument of scalar
    type (arithmetic or pointer), which has no members, makes the call
    ill-formed, wherever it stands in the argument list. *)
Theorem scalar_argument_is_rejected `{!implementation} (f : metafunction)
    (args : list object) (a : object) :
  a ∈ args → is_scalar (type_of a) = true →
  sizeof_ a = None
  ∧ join_impl Monad_Type a = None
  ∧ template_ f args = None
  ∧ lift f args = None.
Proof.
  intros Hin Ha. pose proof (untype_t_scalar _ Ha) as Hu.
  split; [unfold sizeof_; by rewrite Hu|].
  split; [cbn; by rewrite Hu|].
  assert (mapM (λ a, untype_t (type_of a)) args = None) as HN.
  { apply mapM_None, Exists_exists. by exists a. }
  unfold template_, lift. by rewrite HN.
Qed.

(** The literal [2] among Type objects. *)
Lemma scalar_argument_is_rejected_witness :
  literal Tint "2" ∈ [type Tint; literal Tint "2"]
  ∧ is_scalar (type_of (literal Tint "2")) = true
  ∧ @sizeof_ lp64 (literal Tint "2") = None
  ∧ @template_ lp64 is_integral [type Tint; literal Tint "2"] = None
  ∧ @lift lp64 is_integral [type Tint; literal Tint "2"] = None.
Proof.
  assert (literal Tint "2" ∈ [type Tint; literal Tint "2"]) as Hin
    by (apply list_elem_of_further, list_elem_of_here).
  split; [exact Hin|]. split; [reflexivity|].
  destruct (@scalar_argument_is_rejected lp64 is_integral
              [type Tint; literal Tint "2"] (literal Tint "2") Hin eq_refl)
    as (Hs & _ & Ht & Hl).
  split; [exact Hs|split; [exact Ht|exact Hl]].
Defined.

(** ** How the operations compose *)


(** Lifted templates compose as the templates do:
    [template_<g>(template_<f>(args...))] is [template_] of
    [g<f<...>>] on the same arguments, and is ill-formed on the same
    arguments. *)
Theorem template__composes `{!implementation} (f g : metafunction)
    (args : list object) :
  (r ← template_ f args; template_ g [r]) = template_ (after g f) args.
Proof.
  unfold template_, after.
  destruct (mapM _ args) as [xs|]; [|done]. cbn.
  destruct (f xs) as [R|]; [|done]. cbn.
  by destruct (g [R]).
Qed.

(** For a Type object [t], [join_impl(t)] is the call [t()]: with no
    arguments only the variadic call operator that [t] inherits from
    [construct] is viable, and it returns [hidden{}]. *)
Theorem join_impl_is_nullary_call `{!implementation} (t : object) :
  datatype t = Some TType →
  join_impl Monad_Type t = call t [].
Proof.
  intros [X HX]%datatype_Type_wrapper.
  rewrite (call_wrapper t X [] HX). cbn. by rewrite HX.
Qed.

(** At the Type of a Type, [type<decltype(type<int>)>]. *)
Lemma join_impl_is_nullary_call_witness :
  datatype (type (type_of (type Tint))) = Some TType
  ∧ @join_impl (@Monad_Type lp64) (type (type_of (type Tint)))
    = @call lp64 (type (type_of (type Tint))) []
  ∧ @call lp64 (type (type_of (type Tint))) [] = Some (type Tint).
Proof.
  split; [reflexivity|]. split; [|reflexivity].
  exact (@join_impl_is_nullary_call lp64 (type (type_of (type Tint)))
           eq_refl).
Defined.



(** [unit_impl] does not commute with lifted templates.  Let W be the
    class of the object [type<X>], which is the type [unit_impl] deduces
    for its by-value parameter.  For a class template f,
    [template_<f>(unit_impl(type<X>))] is [type<f<W>>], whereas
    [unit_impl(template_<f>(type<X>))] is the Type of the class of
    [type<f<X>>]; [equal_impl] of the two is [false_]. *)
Theorem unit_impl_is_not_natural `{!implementation} (name : string)
    (X : cpp_type) :
  (u ← unit_impl Monad_Type (type X);
   fmap_impl Functor_Type (λ t, template_ (class_template name 1) [t]) u)
  = Some (type (Tinst name [type_of (type X)]))
  ∧ (r ← fmap_impl Functor_Type
           (λ t, template_ (class_template name 1) [t]) (type X);
     unit_impl Monad_Type r)
    = Some (type (type_of (type (Tinst name [X]))))
  ∧ equal_impl Comparable_Type_Type
      (type (Tinst name [type_of (type X)]))
      (type (type_of (type (Tinst name [X])))) = Some false_.
Proof.
  split; [done|]. split; [done|].
  rewrite equal_impl_Type. by rewrite decide_False.
Qed.

(** ** When a Type object can be called *)

(** [type<T>(args...)] is ill-formed only when the initialisation it
    performs is: the two call operators never leave a call without a
    viable candidate and never make it ambiguous. *)
Theorem call_type_well_formed `{!implementation} (T : cpp_type)
    (args : list object) :
  is_Some (call (type T) args)
  ↔ (if single_initializer_list args
     then direct_initializable T (type_of <$> args)
     else well_formed_braces T (type_of <$> args)) = true.
Proof.
  rewrite call_type. unfold direct_init, list_init.
  destruct (single_initializer_list args).
  - destruct (direct_initializable T (type_of <$> args)).
    + split; [done|by eexists].
    + split; [by intros [? ?]|done].
  - destruct (well_formed_braces T (type_of <$> args)).
    + split; [done|by eexists].
    + split; [by intros [? ?]|done].
Qed.

(** ** Counting in a list of Type objects *)

Section counting_types.
Context `{!implementation}.

Lemma satisfies_equal_to (T U : cpp_type) :
  satisfies (equal_to (type T)) (type U) = Some (bool_decide (U = T)).
Proof.
  unfold satisfies, equal_to. rewrite equal_types.
  by destruct (decide (U = T)) as [E|E];
    [rewrite bool_decide_eq_true_2|rewrite bool_decide_eq_false_2].
Qed.

Lemma satisfies_lift_is_floating_point (U : cpp_type) :
  satisfies (λ x, lift is_floating_point [x]) (type U)
  = Some (std_is_floating_point U).
Proof. reflexivity. Qed.
End counting_types.

(** For every list of types and every type T,
    [count(_ == type<T>, list_t<xs...>)] is the number of occurrences of
    T among the [xs]. *)
Theorem count_equal_to_type `{!implementation} (T : cpp_type)
    (xs : list cpp_type) :
  count (equal_to (type T)) (list_t xs)
  = Some (length (filter (λ U, U = T) xs)).
Proof.
  induction xs as [|U xs IH]; [done|].
  unfold list_t in *.
  rewrite filter_cons, fmap_cons, count_cons, satisfies_equal_to, IH.
  destruct (decide (U = T)) as [E|E].
  - by rewrite bool_decide_eq_true_2.
  - by rewrite bool_decide_eq_false_2.
Qed.

(** For every list of types,
    [count(lift<std::is_floating_point>, list_t<xs...>)] is the number of
    floating-point types among the [xs]. *)
Theorem count_lift_is_floating_point `{!implementation}
    (xs : list cpp_type) :
  count (λ x, lift is_floating_point [x]) (list_t xs)
  = Some (length (filter (λ U, std_is_floating_point U = true) xs)).
Proof.
  induction xs as [|U xs IH]; [done|].
  unfold list_t in *.
  rewrite filter_cons, fmap_cons, count_cons,
    satisfies_lift_is_floating_point, IH.
  destruct (std_is_floating_point U).
  - by rewrite decide_True.
  - by rewrite decide_False.
Qed.
